(** * The VNC frame buffer driver: graphics/vnc/server/vnc_fbdev.c

    A shallow embedding of the frame buffer interface that the VNC server
    exports (up_fbinitialize, up_fbgetvplane, up_fbuninitialize and the
    operations stored in the vtable), with the properties that hold of it.

    C values are modelled as follows.
    - [int] and the fixed-width integers are [Z]; the casts the source writes
      are written out as reductions modulo a power of two.
    - A pointer that the code tests against NULL is an [option]; a pointer to
      a structure owned by the caller carries the structure's contents.
    - The static array g_fbinfo is a list, indexed with stdpp's lookup and
      updated with its insert; an index outside the array is an explicit
      fault, since stdpp's insert would silently do nothing there.
    - The session table is a finite map from display numbers to sessions.
    - Every function is a computation over the global data of the driver that
      either returns, stops at a DEBUGASSERT, or faults. *)

From stdpp Require Import base option gmap list.
From Stdlib Require Import ZArith.

#[local] Open Scope Z_scope.

(** ** Constants from headers *)

(** errno.h and the OK of sys/types.h. *)
Definition OK : Z := 0.
Definition ENOMEM : Z := 12.
Definition EINVAL : Z := 22.
Definition ENOTCONN : Z := 107.

(** nuttx/video/fb.h: the bits of fb_setcursor_s.flags. *)
Definition FB_CUR_SETIMAGE : Z := 1.
Definition FB_CUR_SETPOSITION : Z := 2.
Definition FB_CUR_SETSIZE : Z := 4.

(** The build configuration.  RFB_MAX_DISPLAYS and the CONFIG_ values are
    defined outside this file; they are taken as they come.  [CONFIG_DEBUG]
    says whether DEBUGASSERT checks its argument or expands to nothing. *)
Record config := Config {
  RFB_MAX_DISPLAYS : Z;
  CONFIG_VNCSERVER_SCREENWIDTH : Z;
  CONFIG_DEBUG : bool;
  CONFIG_FB_CMAP : bool;
  CONFIG_FB_HWCURSOR : bool;
  CONFIG_FB_HWCURSORSIZE : bool;
  CONFIG_FB_HWCURSORIMAGE : bool
}.

(** The casts of the source. fb_coord_t is the uint16_t of nuttx/video/fb.h. *)
Definition uint8_t (z : Z) : Z := z mod 2 ^ 8.
Definition uint32_t (z : Z) : Z := z mod 2 ^ 32.
Definition fb_coord_t (z : Z) : Z := z mod 2 ^ 16.

(** ** Data *)

(** Modelled from the spec: the enumeration of session states is declared in
    vnc_server.h, which is not part of the sources at hand.  The states are
    the four of the session state machine; VNCSERVER_SCANNING, the only one
    the driver names, is the state in which the viewer is attached and
    capability calls are permitted (READY). *)
Inductive vnc_server_e :=
| VNCSERVER_IDLE
| VNCSERVER_NEGOTIATING
| VNCSERVER_SCANNING
| VNCSERVER_STOPPED.

#[global] Instance vnc_server_e_eq_dec : EqDecision vnc_server_e.
Proof. solve_decision. Defined.

(** struct vnc_session_s, restricted to the members the driver reads:
    state, colorfmt, screen.w, screen.h, fb (0 is NULL), stride and bpp. *)
Record vnc_session_s := Session {
  state : vnc_server_e;
  colorfmt : Z;
  screen_w : Z;
  screen_h : Z;
  fb : Z;
  stride : Z;
  bpp : Z
}.

(** The functions a vtable slot can point to. *)
Inductive fb_function :=
| FN_up_getvideoinfo
| FN_up_getplaneinfo
| FN_up_getcmap
| FN_up_putcmap
| FN_up_getcursor
| FN_up_setcursor.

(** struct fb_vtable_s; a slot that was never assigned is [None]. *)
Record fb_vtable_s := Vtable {
  getvideoinfo : option fb_function;
  getplaneinfo : option fb_function;
  getcmap : option fb_function;
  putcmap : option fb_function;
  getcursor : option fb_function;
  setcursor : option fb_function
}.

(** struct vnc_fbinfo_s. [display] is a uint8_t. *)
Record vnc_fbinfo_s := FbInfo {
  vtable : fb_vtable_s;
  initialized : bool;
  display : Z
}.

(** Static storage is zero when the program starts. *)
Definition vtable_zero : fb_vtable_s := Vtable None None None None None None.
Definition fbinfo_zero : vnc_fbinfo_s := FbInfo vtable_zero false 0.

(** A [struct fb_vtable_s *]: NULL, or the address of the vtable member of
    g_fbinfo[i], which is also the address of g_fbinfo[i] itself. *)
Definition vtable_ptr := option nat.

(** struct fb_videoinfo_s. *)
Record fb_videoinfo_s := VideoInfo {
  fmt : Z;
  xres : Z;
  yres : Z;
  nplanes : Z
}.

(** The value stored in fb_planeinfo_s.fbmem: NULL, or the address of the
    member [fb] of the session of a display. *)
Inductive fbmem_t :=
| FBMEM_NULL
| ADDR_OF_SESSION_FB (d : Z).

(** struct fb_planeinfo_s (members fbmem, fblen, stride, bpp). *)
Record fb_planeinfo_s := PlaneInfo {
  fbmem : fbmem_t;
  fblen : Z;
  pi_stride : Z;
  pi_bpp : Z
}.

(** struct fb_cmap_s: first, len, and the tables red, green and blue that
    the structure points to. *)
Record fb_cmap_s := Cmap {
  cm_first : Z;
  cm_len : Z;
  cm_red : list Z;
  cm_green : list Z;
  cm_blue : list Z
}.

(** struct fb_cursorpos_s and struct fb_cursorsize_s. *)
Record fb_cursorpos_s := CursorPos { cp_x : Z; cp_y : Z }.
Record fb_cursorsize_s := CursorSize { cs_h : Z; cs_w : Z }.

(** struct fb_cursorattrib_s. *)
Record fb_cursorattrib_s := CursorAttrib {
  ca_pos : fb_cursorpos_s;
  ca_mxsize : fb_cursorsize_s;
  ca_size : fb_cursorsize_s
}.

(** struct fb_setcursor_s. *)
Record fb_setcursor_s := SetCursor {
  sc_flags : Z;
  sc_pos : fb_cursorpos_s;
  sc_size : fb_cursorsize_s
}.

(** The global data the driver can reach: the session table of the server,
    and the private data of this file (g_fbinfo, g_cpos, g_csize). *)
Record world := World {
  g_vnc_sessions : gmap Z vnc_session_s;
  g_fbinfo : list vnc_fbinfo_s;
  g_cpos : fb_cursorpos_s;
  g_csize : fb_cursorsize_s
}.

(** ** Computations *)

Inductive outcome (A : Type) :=
| Returned (a : A)
| AssertFailed
| NullDeref
| OutOfBounds.

Arguments Returned {A} a.
Arguments AssertFailed {A}.
Arguments NullDeref {A}.
Arguments OutOfBounds {A}.

Definition M (A : Type) : Type := world → outcome A * world.

Definition retM {A} (a : A) : M A := λ w, (Returned a, w).

Definition bindM {A B} (m : M A) (k : A → M B) : M B :=
  λ w, match m w with
       | (Returned a, w') => k a w'
       | (AssertFailed, w') => (AssertFailed, w')
       | (NullDeref, w') => (NullDeref, w')
       | (OutOfBounds, w') => (OutOfBounds, w')
       end.

Definition failM {A} (o : outcome A) : M A := λ w, (o, w).
Definition reads {A} (f : world → A) : M A := λ w, (Returned (f w), w).
Definition writes (f : world → world) : M unit := λ w, (Returned tt, f w).

Notation "'do' x <- m ; k" := (bindM m (λ x, k))
  (at level 10, x name, m at level 100, k at level 200).
Notation "m ;; k" := (bindM m (λ _, k))
  (at level 100, k at level 200, right associativity).

Definition is_null {A} (p : option A) : bool :=
  match p with Some _ => false | None => true end.

Section Driver.

Context (cfg : config).

(** DEBUGASSERT(f). *)
Definition DEBUGASSERT (f : bool) : M unit :=
  if CONFIG_DEBUG cfg && negb f then failM AssertFailed else retM tt.

(** Modelled from the spec: vnc_find_session is defined in the server, not
    in this file.  The directory is a table of fixed capacity indexed by the
    display number; the lookup answers the session of the display, or absent. *)
Definition vnc_find_session (d : Z) (w : world) : option vnc_session_s :=
  if bool_decide (0 ≤ d < RFB_MAX_DISPLAYS cfg)
  then g_vnc_sessions w !! d
  else None.

(** Reading through a [struct vnc_fbinfo_s *]. *)
Definition load_fbinfo (p : nat) : M vnc_fbinfo_s :=
  λ w, match g_fbinfo w !! p with
       | Some f => (Returned f, w)
       | None => (OutOfBounds, w)
       end.

(** *** up_getvideoinfo *)
Definition up_getvideoinfo (vt : vtable_ptr) (vinfo : option fb_videoinfo_s)
  : M (Z * option fb_videoinfo_s) :=
  DEBUGASSERT (negb (is_null vt) && negb (is_null vinfo)) ;;
  match vt, vinfo with
  | Some p, Some _ =>
      do fbinfo <- load_fbinfo p;
      do session <- reads (vnc_find_session (display fbinfo));
      match session with
      | None => retM (- ENOTCONN, vinfo)
      | Some s =>
          if bool_decide (state s ≠ VNCSERVER_SCANNING)
          then retM (- ENOTCONN, vinfo)
          else retM (OK, Some {| fmt := colorfmt s;
                                 xres := screen_w s;
                                 yres := screen_h s;
                                 nplanes := 1 |})
      end
  | _, _ => retM (- EINVAL, vinfo)
  end.

(** *** up_getplaneinfo *)
Definition up_getplaneinfo (vt : vtable_ptr) (planeno : Z)
    (pinfo : option fb_planeinfo_s) : M (Z * option fb_planeinfo_s) :=
  DEBUGASSERT (negb (is_null vt) && negb (is_null pinfo) && (planeno =? 0)) ;;
  match vt, pinfo with
  | Some p, Some _ =>
      if planeno =? 0 then
        do fbinfo <- load_fbinfo p;
        do session <- reads (vnc_find_session (display fbinfo));
        match session with
        | None => retM (- ENOTCONN, pinfo)
        | Some s =>
            if bool_decide (state s ≠ VNCSERVER_SCANNING)
            then retM (- ENOTCONN, pinfo)
            else
              DEBUGASSERT (negb (fb s =? 0)) ;;
              retM (OK, Some {| fbmem := ADDR_OF_SESSION_FB (display fbinfo);
                                fblen := uint32_t (uint32_t (stride s) *
                                           CONFIG_VNCSERVER_SCREENWIDTH cfg);
                                pi_stride := fb_coord_t (stride s);
                                pi_bpp := bpp s |})
        end
      else retM (- EINVAL, pinfo)
  | _, _ => retM (- EINVAL, pinfo)
  end.

(** *** up_getcmap

    up_getcmap and up_putcmap are compiled with CONFIG_FB_CMAP, up_getcursor
    and up_setcursor with CONFIG_FB_HWCURSOR.  Past the checks the body is empty (the source has a #warning in place of
    the copy): the structure of the caller is returned as it came. *)
Definition up_getcmap (vt : vtable_ptr) (cmap : option fb_cmap_s)
  : M (Z * option fb_cmap_s) :=
  DEBUGASSERT (negb (is_null vt) && negb (is_null cmap)) ;;
  match vt, cmap with
  | Some p, Some _ =>
      do fbinfo <- load_fbinfo p;
      do session <- reads (vnc_find_session (display fbinfo));
      match session with
      | None => retM (- ENOTCONN, cmap)
      | Some s =>
          if bool_decide (state s ≠ VNCSERVER_SCANNING)
          then retM (- ENOTCONN, cmap)
          else retM (OK, cmap)
      end
  | _, _ => retM (- EINVAL, cmap)
  end.

(** *** up_putcmap

    The argument points to a const structure; nothing is stored. *)
Definition up_putcmap (vt : vtable_ptr) (cmap : option fb_cmap_s) : M Z :=
  DEBUGASSERT (negb (is_null vt) && negb (is_null cmap)) ;;
  match vt, cmap with
  | Some p, Some _ =>
      do fbinfo <- load_fbinfo p;
      do session <- reads (vnc_find_session (display fbinfo));
      match session with
      | None => retM (- ENOTCONN)
      | Some s =>
          if bool_decide (state s ≠ VNCSERVER_SCANNING)
          then retM (- ENOTCONN)
          else retM OK
      end
  | _, _ => retM (- EINVAL)
  end.

(** *** up_getcursor *)
Definition up_getcursor (vt : vtable_ptr) (attrib : option fb_cursorattrib_s)
  : M (Z * option fb_cursorattrib_s) :=
  DEBUGASSERT (negb (is_null vt) && negb (is_null attrib)) ;;
  match vt, attrib with
  | Some p, Some _ =>
      do fbinfo <- load_fbinfo p;
      do session <- reads (vnc_find_session (display fbinfo));
      match session with
      | None => retM (- ENOTCONN, attrib)
      | Some s =>
          if bool_decide (state s ≠ VNCSERVER_SCANNING)
          then retM (- ENOTCONN, attrib)
          else retM (OK, attrib)
      end
  | _, _ => retM (- EINVAL, attrib)
  end.

(** *** up_setcursor

    Each requested update is tested for; the three bodies are empty. *)
Definition flag_set (flags bit : Z) : bool := negb (Z.land flags bit =? 0).

Definition up_setcursor (vt : vtable_ptr) (settings : option fb_setcursor_s)
  : M (Z * option fb_setcursor_s) :=
  DEBUGASSERT (negb (is_null vt) && negb (is_null settings)) ;;
  match vt, settings with
  | Some p, Some st =>
      do fbinfo <- load_fbinfo p;
      do session <- reads (vnc_find_session (display fbinfo));
      match session with
      | None => retM (- ENOTCONN, settings)
      | Some s =>
          if bool_decide (state s ≠ VNCSERVER_SCANNING)
          then retM (- ENOTCONN, settings)
          else
            (if flag_set (sc_flags st) FB_CUR_SETPOSITION
             then retM tt else retM tt) ;;
            (if CONFIG_FB_HWCURSORSIZE cfg && flag_set (sc_flags st) FB_CUR_SETSIZE
             then retM tt else retM tt) ;;
            (if CONFIG_FB_HWCURSORIMAGE cfg && flag_set (sc_flags st) FB_CUR_SETIMAGE
             then retM tt else retM tt) ;;
            retM (OK, settings)
      end
  | _, _ => retM (- EINVAL, settings)
  end.

(** *** up_fbinitialize

    kernel_thread belongs to the kernel.  It answers the identifier of the
    task it created, or a negated errno, and the world as the call leaves it:
    the created task is scheduled on its own and may or may not have run by
    the time the call is back.  Its argument vector carries the display
    number in decimal. *)
Context (kernel_thread : Z → world → Z * world).

(** itoa(display, str, 10) writes the digits, a sign for a negative number
    and the terminating NUL into [char str[8]]: seven characters fit. *)
Definition itoa_str8 (d : Z) : M unit :=
  if bool_decide (-999999 ≤ d ≤ 9999999) then retM tt else failM OutOfBounds.

Definition up_fbinitialize (disp : Z) : M Z :=
  DEBUGASSERT ((8 <=? disp) && (disp <? RFB_MAX_DISPLAYS cfg)) ;;
  itoa_str8 disp ;;
  do pid <- (λ w, let '(pid, w') := kernel_thread disp w in (Returned pid, w'));
  if pid <? 0 then retM pid
  else
    (* Wait for the VNC client to connect and for the RFB to be ready:
       the source has a #warning here and no code. *)
    retM OK.

(** *** up_fbgetvplane *)

(** [&g_fbinfo[display]], read. *)
Definition index_fbinfo (d : Z) : M vnc_fbinfo_s :=
  λ w, if bool_decide (0 ≤ d)
       then match g_fbinfo w !! Z.to_nat d with
            | Some f => (Returned f, w)
            | None => (OutOfBounds, w)
            end
       else (OutOfBounds, w).

Definition store_fbinfo (d : Z) (f : vnc_fbinfo_s) : M unit :=
  writes (λ w, {| g_vnc_sessions := g_vnc_sessions w;
                  g_fbinfo := <[Z.to_nat d := f]> (g_fbinfo w);
                  g_cpos := g_cpos w;
                  g_csize := g_csize w |}).

Definition up_fbgetvplane (disp vplane : Z) : M vtable_ptr :=
  do session <- reads (vnc_find_session disp);
  match session with
  | None => failM NullDeref
  | Some s =>
      if bool_decide (state s ≠ VNCSERVER_SCANNING) then retM None
      else if vplane =? 0 then
        do fbinfo <- index_fbinfo disp;
        (if negb (initialized fbinfo) then
           store_fbinfo disp
             {| vtable :=
                  {| getvideoinfo := Some FN_up_getvideoinfo;
                     getplaneinfo := Some FN_up_getplaneinfo;
                     getcmap := if CONFIG_FB_CMAP cfg then Some FN_up_getcmap
                                else getcmap (vtable fbinfo);
                     putcmap := if CONFIG_FB_CMAP cfg then Some FN_up_putcmap
                                else putcmap (vtable fbinfo);
                     getcursor := if CONFIG_FB_HWCURSOR cfg
                                  then Some FN_up_getcursor
                                  else getcursor (vtable fbinfo);
                     setcursor := if CONFIG_FB_HWCURSOR cfg
                                  then Some FN_up_setcursor
                                  else setcursor (vtable fbinfo) |};
                initialized := true;
                display := uint8_t disp |}
         else retM tt) ;;
        retM (Some (Z.to_nat disp))
      else retM None
  end.

(** *** up_fbuninitialize

    The address of g_fbinfo[display] is taken and not used. *)
Definition up_fbuninitialize (disp : Z) : M unit :=
  do session <- reads (vnc_find_session disp);
  DEBUGASSERT (negb (is_null session)) ;;
  retM tt.

End Driver.

(** ** Sample configurations and worlds *)

(** FB_FMT_RGB16_565 of nuttx/video/fb.h. *)
Definition FB_FMT_RGB16_565 : Z := 11.

(** One display, a screen 320 pixels wide, colour map and cursor configured;
    [dbg] chooses whether DEBUGASSERT is active. *)
Definition cfg_one_display (dbg : bool) : config :=
  {| RFB_MAX_DISPLAYS := 1;
     CONFIG_VNCSERVER_SCREENWIDTH := 320;
     CONFIG_DEBUG := dbg;
     CONFIG_FB_CMAP := true;
     CONFIG_FB_HWCURSOR := true;
     CONFIG_FB_HWCURSORSIZE := true;
     CONFIG_FB_HWCURSORIMAGE := true |}.

(** The world with the sessions [ss] and [n] untouched entries of g_fbinfo. *)
Definition world_with (ss : gmap Z vnc_session_s) (n : nat) : world :=
  {| g_vnc_sessions := ss;
     g_fbinfo := replicate n fbinfo_zero;
     g_cpos := CursorPos 0 0;
     g_csize := CursorSize 0 0 |}.

(** The world before any display is started. *)
Definition boot_world (n : nat) : world := world_with ∅ n.

(** A session of 320x240 pixels of 16 bits, 640 bytes to the row. *)
Definition session_320x240 (st : vnc_server_e) : vnc_session_s :=
  {| state := st;
     colorfmt := FB_FMT_RGB16_565;
     screen_w := 320;
     screen_h := 240;
     fb := 4096;
     stride := 640;
     bpp := 16 |}.

(** ** Properties *)

(** The session of a display is absent or is not in the scanning state. *)
Definition not_connected (cfg : config) (d : Z) (w : world) : Prop :=
  match vnc_find_session cfg d w with
  | None => True
  | Some s => state s ≠ VNCSERVER_SCANNING
  end.

(** A call that hands a structure back: the world is as it was, and unless
    the call answered OK so is the structure. *)
Definition all_or_nothing {A} (arg : option A) (w : world)
    (r : outcome (Z * option A) * world) : Prop :=
  r.2 = w ∧ ∀ rc out, r.1 = Returned (rc, out) → rc ≠ OK → out = arg.

(** How a call that refuses its arguments ends: the value [x] is returned,
    unless DEBUGASSERT is active, in which case the call stops at it.  The
    world is as it was in both cases. *)
Definition refused (cfg : config) {A} (x : A) (w : world)
  : outcome A * world :=
  (if CONFIG_DEBUG cfg then AssertFailed else Returned x, w).

(** What up_fbgetvplane stores in g_fbinfo[display] the first time. *)
Definition fbinfo_bound (cfg : config) (disp : Z) (old : vnc_fbinfo_s)
  : vnc_fbinfo_s :=
  {| vtable :=
       {| getvideoinfo := Some FN_up_getvideoinfo;
          getplaneinfo := Some FN_up_getplaneinfo;
          getcmap := if CONFIG_FB_CMAP cfg then Some FN_up_getcmap
                     else getcmap (vtable old);
          putcmap := if CONFIG_FB_CMAP cfg then Some FN_up_putcmap
                     else putcmap (vtable old);
          getcursor := if CONFIG_FB_HWCURSOR cfg then Some FN_up_getcursor
                       else getcursor (vtable old);
          setcursor := if CONFIG_FB_HWCURSOR cfg then Some FN_up_setcursor
                       else setcursor (vtable old) |};
     initialized := true;
     display := uint8_t disp |}.

(** The world once up_fbgetvplane has stored it. *)
Definition bind_adapter (cfg : config) (disp : Z) (old : vnc_fbinfo_s)
    (w : world) : world :=
  {| g_vnc_sessions := g_vnc_sessions w;
     g_fbinfo := <[Z.to_nat disp := fbinfo_bound cfg disp old]> (g_fbinfo w);
     g_cpos := g_cpos w;
     g_csize := g_csize w |}.

(** Sample arguments. *)
Definition vinfo_blank : fb_videoinfo_s := VideoInfo 0 0 0 0.
Definition pinfo_blank : fb_planeinfo_s := PlaneInfo FBMEM_NULL 0 0 0.
Definition cmap_blank : fb_cmap_s := Cmap 0 1 [0] [0] [0].
Definition attrib_blank : fb_cursorattrib_s :=
  CursorAttrib (CursorPos 0 0) (CursorSize 0 0) (CursorSize 0 0).
Definition settings_move : fb_setcursor_s :=
  SetCursor FB_CUR_SETPOSITION (CursorPos 3 4) (CursorSize 0 0).

(** g_fbinfo[0] once up_fbgetvplane has filled it in for display 0. *)
Definition fbinfo_bound0 : vnc_fbinfo_s :=
  {| vtable :=
       {| getvideoinfo := Some FN_up_getvideoinfo;
          getplaneinfo := Some FN_up_getplaneinfo;
          getcmap := Some FN_up_getcmap;
          putcmap := Some FN_up_putcmap;
          getcursor := Some FN_up_getcursor;
          setcursor := Some FN_up_setcursor |};
     initialized := true;
     display := 0 |}.

(** Display 0 with its adapter bound and its session in state [st]. *)
Definition world_bound0 (st : vnc_server_e) : world :=
  {| g_vnc_sessions := {[ 0 := session_320x240 st ]};
     g_fbinfo := [fbinfo_bound0];
     g_cpos := CursorPos 0 0;
     g_csize := CursorSize 0 0 |}.

(** A spawn that succeeds with task identifier [pid]; the new task has not
    run when the call is back. *)
Definition spawn_ok (pid : Z) : Z → world → Z * world := λ _ w, (pid, w).

(** A spawn that fails with -[errno] and leaves the world alone. *)
Definition spawn_fails (errno : Z) : Z → world → Z * world :=
  λ _ w, (- errno, w).

(** A spawn that succeeds and whose task has got as far as entering its
    session for the display, still negotiating, when the call is back. *)
Definition spawn_negotiating (pid : Z) : Z → world → Z * world :=
  λ d w, (pid,
          {| g_vnc_sessions :=
               <[d := session_320x240 VNCSERVER_NEGOTIATING]> (g_vnc_sessions w);
             g_fbinfo := g_fbinfo w;
             g_cpos := g_cpos w;
             g_csize := g_csize w |}).

(** ** Statements about the driver as a whole *)




(** The vtable pointer [vt] leads to a scanning session: it is the address
    of an entry of g_fbinfo, and the display recorded there has a session in
    the scanning state. *)
Definition connected_through (cfg : config) (vt : vtable_ptr) (w : world)
  : Prop :=
  ∃ p f s, vt = Some p ∧ g_fbinfo w !! p = Some f ∧
           vnc_find_session cfg (display f) w = Some s ∧
           state s = VNCSERVER_SCANNING.

(** The value a call returned, if it returned, is one of [codes]. *)
Definition returns_one_of {A} (codes : list Z) (code : A → Z) (o : outcome A)
  : Prop :=
  match o with
  | Returned a => code a ∈ codes
  | _ => True
  end.

(** g_fbinfo as the driver keeps it: the array has its declared size, and
    the entry of index [i] is either as it was when the program started or
    as up_fbgetvplane fills it in for display [i]. *)
Definition fbinfo_entry_ok (cfg : config) (i : nat) (f : vnc_fbinfo_s) : Prop :=
  f = fbinfo_zero ∨ f = fbinfo_bound cfg (Z.of_nat i) fbinfo_zero.

Definition fbinfo_inv (cfg : config) (w : world) : Prop :=
  length (g_fbinfo w) = Z.to_nat (RFB_MAX_DISPLAYS cfg) ∧
  ∀ i f, g_fbinfo w !! i = Some f → fbinfo_entry_ok cfg i f.

(** A call of one of the nine functions of the driver, with its arguments. *)
Inductive driver_call :=
| CALL_up_fbinitialize (disp : Z)
| CALL_up_fbgetvplane (disp vplane : Z)
| CALL_up_fbuninitialize (disp : Z)
| CALL_up_getvideoinfo (vt : vtable_ptr) (vinfo : option fb_videoinfo_s)
| CALL_up_getplaneinfo (vt : vtable_ptr) (planeno : Z)
    (pinfo : option fb_planeinfo_s)
| CALL_up_getcmap (vt : vtable_ptr) (cmap : option fb_cmap_s)
| CALL_up_putcmap (vt : vtable_ptr) (cmap : option fb_cmap_s)
| CALL_up_getcursor (vt : vtable_ptr) (attrib : option fb_cursorattrib_s)
| CALL_up_setcursor (vt : vtable_ptr) (settings : option fb_setcursor_s).

(** The world a call leaves, whether it returns or stops. *)
Definition world_after (cfg : config) (kernel_thread : Z → world → Z * world)
    (c : driver_call) (w : world) : world :=
  match c with
  | CALL_up_fbinitialize d => (up_fbinitialize cfg kernel_thread d w).2
  | CALL_up_fbgetvplane d v => (up_fbgetvplane cfg d v w).2
  | CALL_up_fbuninitialize d => (up_fbuninitialize cfg d w).2
  | CALL_up_getvideoinfo vt a => (up_getvideoinfo cfg vt a w).2
  | CALL_up_getplaneinfo vt n a => (up_getplaneinfo cfg vt n a w).2
  | CALL_up_getcmap vt a => (up_getcmap cfg vt a w).2
  | CALL_up_putcmap vt a => (up_putcmap cfg vt a w).2
  | CALL_up_getcursor vt a => (up_getcursor cfg vt a w).2
  | CALL_up_setcursor vt a => (up_setcursor cfg vt a w).2
  end.

(** The world after a sequence of calls, the first of the list first. *)
Definition world_after_calls (cfg : config)
    (kernel_thread : Z → world → Z * world) (cs : list driver_call)
    (w : world) : world :=
  foldl (λ w' c, world_after cfg kernel_thread c w') w cs.

(** Several displays, for the display numbers that do not fit 8 bits. *)
Definition cfg_displays (n : Z) (dbg : bool) : config :=
  {| RFB_MAX_DISPLAYS := n;
     CONFIG_VNCSERVER_SCREENWIDTH := 320;
     CONFIG_DEBUG := dbg;
     CONFIG_FB_CMAP := true;
     CONFIG_FB_HWCURSOR := false;
     CONFIG_FB_HWCURSORSIZE := false;
     CONFIG_FB_HWCURSORIMAGE := false |}.

(** A spawn that succeeds and whose task has brought the session of the
    display to the scanning state when the call is back. *)
Definition spawn_scanning (pid : Z) : Z → world → Z * world :=
  λ d w, (pid,
          {| g_vnc_sessions :=
               <[d := session_320x240 VNCSERVER_SCANNING]> (g_vnc_sessions w);
             g_fbinfo := g_fbinfo w;
             g_cpos := g_cpos w;
             g_csize := g_csize w |}).

Ltac unfold_driver :=
  unfold up_getvideoinfo, up_getplaneinfo, up_getcmap, up_putcmap,
    up_getcursor, up_setcursor, up_fbinitialize, up_fbgetvplane,
    up_fbuninitialize, itoa_str8, index_fbinfo, store_fbinfo, load_fbinfo,
    DEBUGASSERT, bindM, retM, failM, reads, writes, is_null in *;
  cbv beta in *.

Ltac run_driver :=
  unfold_driver; repeat (case_match; simplify_eq/=); try done;
  try (intros; by simplify_eq).

Section CapabilityCalls.

Context (cfg : config).

Lemma up_getvideoinfo_all_or_nothing vt vinfo w :
  all_or_nothing vinfo w (up_getvideoinfo cfg vt vinfo w).
Proof. split; [| intros rc out]; run_driver. Qed.

Lemma up_getplaneinfo_all_or_nothing vt planeno pinfo w :
  all_or_nothing pinfo w (up_getplaneinfo cfg vt planeno pinfo w).
Proof. split; [| intros rc out]; run_driver. Qed.

Lemma up_getcmap_all_or_nothing vt cmap w :
  all_or_nothing cmap w (up_getcmap cfg vt cmap w).
Proof. split; [| intros rc out]; run_driver. Qed.

Lemma up_putcmap_world vt cmap w : (up_putcmap cfg vt cmap w).2 = w.
Proof. run_driver. Qed.

Lemma up_getcursor_all_or_nothing vt attrib w :
  all_or_nothing attrib w (up_getcursor cfg vt attrib w).
Proof. split; [| intros rc out]; run_driver. Qed.

Lemma up_setcursor_all_or_nothing vt settings w :
  all_or_nothing settings w (up_setcursor cfg vt settings w).
Proof. split; [| intros rc out]; run_driver. Qed.

(** The record of the display behind a vtable pointer, and its session. *)
Lemma not_connected_cases d w :
  not_connected cfg d w →
  vnc_find_session cfg d w = None ∨
  ∃ s, vnc_find_session cfg d w = Some s ∧
       bool_decide (state s ≠ VNCSERVER_SCANNING) = true.
Proof.
  unfold not_connected. destruct (vnc_find_session cfg d w) as [s|]; [| by left].
  intros Hs. right. exists s. split; [done |]. by apply bool_decide_eq_true.
Qed.

(** C4. A capability operation called with a vtable pointer and an argument
    structure that are not NULL (and plane 0 for up_getplaneinfo), while the
    session of the display is absent or not in the scanning state, returns
    -ENOTCONN and leaves the world and the structure of the caller as they
    were.  Moreover, whatever the arguments, no capability operation changes
    the world, and one that does not answer OK leaves the structure of the
    caller unchanged. *)
Theorem capability_not_connected w p fbinfo vinfo pinfo cmap attrib settings :
  g_fbinfo w !! p = Some fbinfo →
  not_connected cfg (display fbinfo) w →
  (up_getvideoinfo cfg (Some p) (Some vinfo) w
     = (Returned (- ENOTCONN, Some vinfo), w) ∧
   up_getplaneinfo cfg (Some p) 0 (Some pinfo) w
     = (Returned (- ENOTCONN, Some pinfo), w) ∧
   up_getcmap cfg (Some p) (Some cmap) w
     = (Returned (- ENOTCONN, Some cmap), w) ∧
   up_putcmap cfg (Some p) (Some cmap) w = (Returned (- ENOTCONN), w) ∧
   up_getcursor cfg (Some p) (Some attrib) w
     = (Returned (- ENOTCONN, Some attrib), w) ∧
   up_setcursor cfg (Some p) (Some settings) w
     = (Returned (- ENOTCONN, Some settings), w)) ∧
  (∀ vt planeno vi pi cm at' st w',
     all_or_nothing vi w' (up_getvideoinfo cfg vt vi w') ∧
     all_or_nothing pi w' (up_getplaneinfo cfg vt planeno pi w') ∧
     all_or_nothing cm w' (up_getcmap cfg vt cm w') ∧
     (up_putcmap cfg vt cm w').2 = w' ∧
     all_or_nothing at' w' (up_getcursor cfg vt at' w') ∧
     all_or_nothing st w' (up_setcursor cfg vt st w')).
Proof.
  intros Hp Hnc. split.
  - unfold_driver. simpl. rewrite !andb_false_r, Hp.
    destruct (not_connected_cases _ _ Hnc) as [-> | (s & -> & ->)];
      by repeat split.
  - intros. repeat split;
      first [ apply up_getvideoinfo_all_or_nothing
            | apply up_getplaneinfo_all_or_nothing
            | apply up_getcmap_all_or_nothing
            | apply up_putcmap_world
            | apply up_getcursor_all_or_nothing
            | apply up_setcursor_all_or_nothing ].
Qed.

End CapabilityCalls.

Lemma capability_not_connected_witness :
  let cfg := cfg_one_display false in
  let w := world_bound0 VNCSERVER_STOPPED in
  g_fbinfo w !! 0%nat = Some fbinfo_bound0 ∧
  not_connected cfg (display fbinfo_bound0) w ∧
  up_getvideoinfo cfg (Some 0%nat) (Some vinfo_blank) w
    = (Returned (- ENOTCONN, Some vinfo_blank), w) ∧
  up_setcursor cfg (Some 0%nat) (Some settings_move) w
    = (Returned (- ENOTCONN, Some settings_move), w).
Proof.
  assert (Hp : g_fbinfo (world_bound0 VNCSERVER_STOPPED) !! 0%nat
               = Some fbinfo_bound0) by reflexivity.
  assert (Hnc : not_connected (cfg_one_display false) (display fbinfo_bound0)
                  (world_bound0 VNCSERVER_STOPPED)) by (vm_compute; discriminate).
  pose proof (capability_not_connected (cfg_one_display false)
                (world_bound0 VNCSERVER_STOPPED) 0%nat fbinfo_bound0
                vinfo_blank pinfo_blank cmap_blank attrib_blank settings_move
                Hp Hnc) as [(Hv & _ & _ & _ & _ & Hs) _].
  simpl. exact (conj Hp (conj Hnc (conj Hv Hs))).
Defined.

Section Binding.

Context (cfg : config).

(** C10. When the session of a display exists and is not in the scanning
    state, up_fbgetvplane returns NULL for plane 0 (and for any other plane)
    and writes nothing: the adapter is neither constructed nor returned. *)
Theorem up_fbgetvplane_not_scanning w disp vplane s :
  vnc_find_session cfg disp w = Some s →
  state s ≠ VNCSERVER_SCANNING →
  up_fbgetvplane cfg disp vplane w = (Returned None, w).
Proof.
  intros Hs Hst. unfold_driver. rewrite Hs.
  by rewrite (bool_decide_eq_true_2 _ Hst).
Qed.

(** C9. up_fbgetvplane and up_fbuninitialize use the result of the session
    lookup with no guard.  up_fbgetvplane reads the state through it before
    it looks at the plane: it dereferences NULL exactly when the display has
    no session, whatever the plane, so that a display never started has no
    defined result (neither NULL nor an adapter).  up_fbuninitialize asserts
    that the session exists: with assertions active it stops there exactly
    when the display has no session, and it changes nothing in any case. *)
Theorem session_lookup_unguarded w disp vplane :
  (up_fbgetvplane cfg disp vplane w = (NullDeref, w)
     ↔ vnc_find_session cfg disp w = None) ∧
  ((up_fbgetvplane cfg disp vplane w).1 = NullDeref
     ↔ vnc_find_session cfg disp w = None) ∧
  ((up_fbuninitialize cfg disp w).1 = AssertFailed
     ↔ CONFIG_DEBUG cfg = true ∧ vnc_find_session cfg disp w = None) ∧
  (up_fbuninitialize cfg disp w).2 = w.
Proof.
  split; [| split; [| split]].
  - split; intros H; [| unfold_driver; by rewrite H].
    destruct (vnc_find_session cfg disp w) as [s|] eqn:Hs; [| done].
    exfalso. revert H. unfold_driver. rewrite Hs. run_driver.
  - split; intros H; [| unfold_driver; by rewrite H].
    destruct (vnc_find_session cfg disp w) as [s|] eqn:Hs; [| done].
    exfalso. revert H. unfold_driver. rewrite Hs. run_driver.
  - unfold_driver.
    destruct (CONFIG_DEBUG cfg), (vnc_find_session cfg disp w); simpl;
      split; try done; by intros [? ?].
  - run_driver.
Qed.

End Binding.

Lemma up_fbgetvplane_not_scanning_witness :
  let cfg := cfg_one_display false in
  let w := world_with {[ 0 := session_320x240 VNCSERVER_NEGOTIATING ]} 1 in
  vnc_find_session cfg 0 w = Some (session_320x240 VNCSERVER_NEGOTIATING) ∧
  state (session_320x240 VNCSERVER_NEGOTIATING) ≠ VNCSERVER_SCANNING ∧
  up_fbgetvplane cfg 0 0 w = (Returned None, w).
Proof.
  simpl. split; [reflexivity |]. split; [discriminate |].
  apply (up_fbgetvplane_not_scanning (cfg_one_display false) _ 0 0
           (session_320x240 VNCSERVER_NEGOTIATING)); [reflexivity | discriminate].
Defined.

Section InvalidArguments.

Context (cfg : config).

(** C8, as amended.  A NULL vtable pointer or a NULL argument structure, and
    for up_getplaneinfo a plane other than 0, ends every capability operation
    before the vtable pointer is read and before any session is looked up,
    with the world and the structure of the caller unchanged: the call
    returns -EINVAL when DEBUGASSERT expands to nothing, and stops at the
    DEBUGASSERT when assertions are active. *)
Theorem capability_invalid_argument vt planeno badplane vinfo pinfo cmap attrib
    settings w :
  badplane ≠ 0 →
  up_getvideoinfo cfg None vinfo w = refused cfg (- EINVAL, vinfo) w ∧
  up_getvideoinfo cfg vt None w = refused cfg (- EINVAL, None) w ∧
  up_getplaneinfo cfg None planeno pinfo w = refused cfg (- EINVAL, pinfo) w ∧
  up_getplaneinfo cfg vt planeno None w = refused cfg (- EINVAL, None) w ∧
  up_getplaneinfo cfg vt badplane pinfo w = refused cfg (- EINVAL, pinfo) w ∧
  up_getcmap cfg None cmap w = refused cfg (- EINVAL, cmap) w ∧
  up_getcmap cfg vt None w = refused cfg (- EINVAL, None) w ∧
  up_putcmap cfg None cmap w = refused cfg (- EINVAL) w ∧
  up_putcmap cfg vt None w = refused cfg (- EINVAL) w ∧
  up_getcursor cfg None attrib w = refused cfg (- EINVAL, attrib) w ∧
  up_getcursor cfg vt None w = refused cfg (- EINVAL, None) w ∧
  up_setcursor cfg None settings w = refused cfg (- EINVAL, settings) w ∧
  up_setcursor cfg vt None w = refused cfg (- EINVAL, None) w.
Proof.
  intros Hplane. apply Z.eqb_neq in Hplane.
  unfold refused, up_getvideoinfo, up_getplaneinfo, up_getcmap, up_putcmap,
    up_getcursor, up_setcursor, DEBUGASSERT, bindM, retM, failM, is_null.
  rewrite Hplane.
  destruct (CONFIG_DEBUG cfg), vt, pinfo; simpl; rewrite ?andb_false_r; simpl;
    repeat split; reflexivity.
Qed.

End InvalidArguments.

Lemma capability_invalid_argument_witness :
  let cfg := cfg_one_display false in
  let w := world_bound0 VNCSERVER_SCANNING in
  1 ≠ 0 ∧
  up_getvideoinfo cfg (Some 0%nat) None w = (Returned (- EINVAL, None), w) ∧
  up_getplaneinfo cfg (Some 0%nat) 1 (Some pinfo_blank) w
    = (Returned (- EINVAL, Some pinfo_blank), w).
Proof.
  assert (Hplane : 1 ≠ 0) by discriminate.
  pose proof (capability_invalid_argument (cfg_one_display false)
                (Some 0%nat) 0 1 (Some vinfo_blank) (Some pinfo_blank)
                (Some cmap_blank) (Some attrib_blank) (Some settings_move)
                (world_bound0 VNCSERVER_SCANNING) Hplane)
    as (_ & Hv & _ & _ & Hp & _).
  exact (conj Hplane (conj Hv Hp)).
Defined.

(** With DEBUGASSERT active, up_getvideoinfo called with a NULL [vinfo] stops
    at the assertion: it does not return -EINVAL. *)
Lemma up_getvideoinfo_null_asserts :
  let cfg := cfg_one_display true in
  let w := world_bound0 VNCSERVER_SCANNING in
  up_getvideoinfo cfg (Some 0%nat) None w = (AssertFailed, w) ∧
  (up_getvideoinfo cfg (Some 0%nat) None w).1 ≠ Returned (- EINVAL, None).
Proof. split; [reflexivity | discriminate]. Qed.

Section Adapter.

Context (cfg : config).

Lemma vnc_find_session_in_range d w s :
  vnc_find_session cfg d w = Some s → 0 ≤ d < RFB_MAX_DISPLAYS cfg.
Proof. unfold vnc_find_session. by case_bool_decide. Qed.

(** A scanning session and plane 0: the entry of the display is filled in
    if it was not, and its address is returned. *)
Lemma up_fbgetvplane_scanning w disp s f :
  vnc_find_session cfg disp w = Some s →
  state s = VNCSERVER_SCANNING →
  g_fbinfo w !! Z.to_nat disp = Some f →
  up_fbgetvplane cfg disp 0 w
  = (Returned (Some (Z.to_nat disp)),
     if initialized f then w else bind_adapter cfg disp f w).
Proof.
  intros Hs Hst Hf. pose proof (vnc_find_session_in_range _ _ _ Hs) as [H0 _].
  unfold_driver. rewrite Hs, Hst. simpl.
  rewrite (bool_decide_eq_true_2 _ H0), Hf.
  by destruct (initialized f).
Qed.

(** C5, as amended.  For a display in range whose session exists and is in
    the scanning state, up_fbgetvplane with plane 0 returns the address of
    the vtable of g_fbinfo[display], and a second call returns the same
    address; the entry is filled in by the first call at most and the second
    call writes nothing.  For a display whose session exists, in whatever
    state, any plane other than 0 yields NULL and writes nothing. *)
Theorem up_fbgetvplane_same_adapter w disp s :
  length (g_fbinfo w) = Z.to_nat (RFB_MAX_DISPLAYS cfg) →
  vnc_find_session cfg disp w = Some s →
  (state s = VNCSERVER_SCANNING →
   ∃ w1 f1,
     up_fbgetvplane cfg disp 0 w = (Returned (Some (Z.to_nat disp)), w1) ∧
     up_fbgetvplane cfg disp 0 w1 = (Returned (Some (Z.to_nat disp)), w1) ∧
     g_fbinfo w1 !! Z.to_nat disp = Some f1 ∧
     initialized f1 = true ∧
     g_vnc_sessions w1 = g_vnc_sessions w) ∧
  (∀ vplane, vplane ≠ 0 →
     up_fbgetvplane cfg disp vplane w = (Returned None, w)).
Proof.
  intros Hlen Hs. pose proof (vnc_find_session_in_range _ _ _ Hs) as Hr.
  split.
  - intros Hst.
    assert (Hlt : (Z.to_nat disp < length (g_fbinfo w))%nat) by lia.
    destruct (lookup_lt_is_Some_2 _ _ Hlt) as [f Hf].
    rewrite (up_fbgetvplane_scanning w disp s f Hs Hst Hf).
    destruct (initialized f) eqn:Hi.
    + exists w, f. repeat split; try done.
      rewrite (up_fbgetvplane_scanning w disp s f Hs Hst Hf). by rewrite Hi.
    + exists (bind_adapter cfg disp f w), (fbinfo_bound cfg disp f).
      assert (Hf1 : g_fbinfo (bind_adapter cfg disp f w) !! Z.to_nat disp
                    = Some (fbinfo_bound cfg disp f))
        by (simpl; by apply list_lookup_insert_eq).
      assert (Hs1 : vnc_find_session cfg disp (bind_adapter cfg disp f w) = Some s)
        by exact Hs.
      repeat split; try done.
      by rewrite (up_fbgetvplane_scanning _ disp s _ Hs1 Hst Hf1).
  - intros vplane Hv. apply Z.eqb_neq in Hv.
    unfold_driver. rewrite Hs, Hv. by case_bool_decide.
Qed.

End Adapter.

Lemma up_fbgetvplane_same_adapter_witness :
  let cfg := cfg_one_display false in
  let w := world_with {[ 0 := session_320x240 VNCSERVER_SCANNING ]} 1 in
  length (g_fbinfo w) = Z.to_nat (RFB_MAX_DISPLAYS cfg) ∧
  vnc_find_session cfg 0 w = Some (session_320x240 VNCSERVER_SCANNING) ∧
  (∃ w1, up_fbgetvplane cfg 0 0 w = (Returned (Some 0%nat), w1) ∧
         up_fbgetvplane cfg 0 0 w1 = (Returned (Some 0%nat), w1)) ∧
  up_fbgetvplane cfg 0 1 w = (Returned None, w).
Proof.
  pose (cfg := cfg_one_display false).
  pose (w := world_with {[ 0 := session_320x240 VNCSERVER_SCANNING ]} 1).
  assert (Hlen : length (g_fbinfo w) = Z.to_nat (RFB_MAX_DISPLAYS cfg))
    by reflexivity.
  assert (Hs : vnc_find_session cfg 0 w
               = Some (session_320x240 VNCSERVER_SCANNING)) by reflexivity.
  destruct (up_fbgetvplane_same_adapter cfg w 0 _ Hlen Hs) as [Hsame Hplane].
  destruct (Hsame eq_refl) as (w1 & f1 & H1 & H2 & _).
  assert (Hne : 1 ≠ 0) by discriminate.
  exact (conj Hlen (conj Hs (conj (ex_intro _ w1 (conj H1 H2))
                                  (Hplane 1 Hne)))).
Defined.

(** On the sample world the adapter of display 0 is built by the first call
    and handed out again by the second. *)
Example up_fbgetvplane_twice :
  let cfg := cfg_one_display false in
  let w := world_with {[ 0 := session_320x240 VNCSERVER_SCANNING ]} 1 in
  up_fbgetvplane cfg 0 0 w
    = (Returned (Some 0%nat), world_bound0 VNCSERVER_SCANNING) ∧
  up_fbgetvplane cfg 0 0 (world_bound0 VNCSERVER_SCANNING)
    = (Returned (Some 0%nat), world_bound0 VNCSERVER_SCANNING).
Proof. split; reflexivity. Qed.

(** Display 0 is in range.  With its session still negotiating, plane 0
    yields NULL and g_fbinfo[0] is left as it was: no adapter is returned.
    With no session at all, plane 1 dereferences NULL instead of yielding
    NULL. *)
Lemma up_fbgetvplane_no_adapter :
  let cfg := cfg_one_display false in
  let w := world_with {[ 0 := session_320x240 VNCSERVER_NEGOTIATING ]} 1 in
  (0 ≤ 0 < RFB_MAX_DISPLAYS cfg) ∧
  up_fbgetvplane cfg 0 0 w = (Returned None, w) ∧
  g_fbinfo w !! 0%nat = Some fbinfo_zero ∧
  up_fbgetvplane cfg 0 1 (boot_world 1) = (NullDeref, boot_world 1).
Proof. simpl. split; [lia |]. repeat split. Qed.

Section Lifecycle.

Context (cfg : config) (kernel_thread : Z → world → Z * world).

(** up_fbinitialize past its assertion and the conversion of the display
    number: the task is spawned, a negative answer is returned as it is and
    any other answer is turned into OK at once.  The world is the one the
    spawn left; up_fbinitialize writes nothing of its own. *)
Lemma up_fbinitialize_spawn disp w :
  CONFIG_DEBUG cfg && negb ((8 <=? disp) && (disp <? RFB_MAX_DISPLAYS cfg))
    = false →
  -999999 ≤ disp ≤ 9999999 →
  up_fbinitialize cfg kernel_thread disp w
  = (Returned (if (kernel_thread disp w).1 <? 0
               then (kernel_thread disp w).1 else OK),
     (kernel_thread disp w).2).
Proof.
  intros Hassert Hfits. unfold_driver. rewrite Hassert.
  rewrite (bool_decide_eq_true_2 _ Hfits).
  destruct (kernel_thread disp w) as [pid w']. simpl.
  by destruct (pid <? 0).
Qed.

(** C7. When up_fbinitialize gets as far as spawning the server task and the
    spawn fails, answering a negative value and leaving the world [w'], the
    call returns that value, and the world after the call is [w']:
    up_fbinitialize itself creates or modifies no session. *)
Theorem up_fbinitialize_spawn_failure disp w pid w' :
  CONFIG_DEBUG cfg = false ∨ 8 ≤ disp < RFB_MAX_DISPLAYS cfg →
  -999999 ≤ disp ≤ 9999999 →
  kernel_thread disp w = (pid, w') →
  pid < 0 →
  up_fbinitialize cfg kernel_thread disp w = (Returned pid, w') ∧
  (g_vnc_sessions w' = g_vnc_sessions w →
   g_vnc_sessions (up_fbinitialize cfg kernel_thread disp w).2
   = g_vnc_sessions w).
Proof.
  intros Hassert Hfits Hkt Hpid.
  assert (Heq : up_fbinitialize cfg kernel_thread disp w = (Returned pid, w')).
  { rewrite up_fbinitialize_spawn; [| | done].
    - rewrite Hkt. simpl. by rewrite (proj2 (Z.ltb_lt _ _) Hpid).
    - destruct Hassert as [-> | [H8 HN]]; [done |].
      rewrite (proj2 (Z.leb_le _ _) H8), (proj2 (Z.ltb_lt _ _) HN).
      apply andb_false_r. }
  split; [done |]. by rewrite Heq.
Qed.

(** C3, as amended.  For a display number outside [0, RFB_MAX_DISPLAYS):
    up_fbinitialize has no range check that returns -EINVAL.  The range is
    asserted only: with assertions active the call stops at the DEBUGASSERT;
    with DEBUGASSERT expanding to nothing, and a display number whose decimal
    text fits the buffer, the task is spawned, and the call returns the
    negative answer of the spawn or OK and leaves the world as the spawn left
    it, reading and writing no session or adapter storage of its own.
    up_fbgetvplane answers a pointer, not an error code: for such a display
    it returns no adapter and writes nothing. *)
Theorem out_of_range_display disp vplane w :
  ¬ (0 ≤ disp < RFB_MAX_DISPLAYS cfg) →
  (CONFIG_DEBUG cfg = true →
   up_fbinitialize cfg kernel_thread disp w = (AssertFailed, w)) ∧
  (CONFIG_DEBUG cfg = false → -999999 ≤ disp ≤ 9999999 →
   up_fbinitialize cfg kernel_thread disp w
   = (Returned (if (kernel_thread disp w).1 <? 0
                then (kernel_thread disp w).1 else OK),
      (kernel_thread disp w).2)) ∧
  (up_fbgetvplane cfg disp vplane w).2 = w ∧
  (∀ p, (up_fbgetvplane cfg disp vplane w).1 ≠ Returned (Some p)).
Proof.
  intros Hout. repeat split.
  - intros Hdbg. unfold_driver. rewrite Hdbg.
    assert ((8 <=? disp) && (disp <? RFB_MAX_DISPLAYS cfg) = false) as ->; [| done].
    apply andb_false_iff.
    destruct (Z.leb_spec 8 disp); [right | by left].
    apply Z.ltb_ge. lia.
  - intros Hdbg Hfits. apply up_fbinitialize_spawn; [by rewrite Hdbg | done].
  - unfold up_fbgetvplane, reads, bindM, vnc_find_session.
    by rewrite (bool_decide_eq_false_2 _ Hout).
  - intros p. unfold up_fbgetvplane, reads, bindM, vnc_find_session.
    by rewrite (bool_decide_eq_false_2 _ Hout).
Qed.

End Lifecycle.

Lemma up_fbinitialize_spawn_failure_witness :
  let cfg := cfg_one_display false in
  (CONFIG_DEBUG cfg = false ∨ 8 ≤ 0 < RFB_MAX_DISPLAYS cfg) ∧
  -999999 ≤ 0 ≤ 9999999 ∧
  spawn_fails ENOMEM 0 (boot_world 1) = (- ENOMEM, boot_world 1) ∧
  - ENOMEM < 0 ∧
  up_fbinitialize cfg (spawn_fails ENOMEM) 0 (boot_world 1)
    = (Returned (- ENOMEM), boot_world 1).
Proof.
  assert (H1 : CONFIG_DEBUG (cfg_one_display false) = false
               ∨ 8 ≤ 0 < RFB_MAX_DISPLAYS (cfg_one_display false))
    by (left; reflexivity).
  assert (H2 : -999999 ≤ 0 ≤ 9999999) by lia.
  assert (H3 : spawn_fails ENOMEM 0 (boot_world 1)
               = (- ENOMEM, boot_world 1)) by reflexivity.
  assert (H4 : - ENOMEM < 0) by reflexivity.
  exact (conj H1 (conj H2 (conj H3 (conj H4
    (proj1 (up_fbinitialize_spawn_failure (cfg_one_display false)
              (spawn_fails ENOMEM) 0 (boot_world 1) (- ENOMEM) (boot_world 1)
              H1 H2 H3 H4)))))).
Defined.

Lemma out_of_range_display_witness :
  let cfg := cfg_one_display false in
  ¬ (0 ≤ -1 < RFB_MAX_DISPLAYS cfg) ∧
  up_fbinitialize cfg (spawn_ok 5) (-1) (boot_world 1)
    = (Returned OK, boot_world 1) ∧
  (up_fbgetvplane cfg (-1) 0 (boot_world 1)).2 = boot_world 1.
Proof.
  assert (Hout : ¬ (0 ≤ -1 < RFB_MAX_DISPLAYS (cfg_one_display false)))
    by (simpl; lia).
  assert (Hfits : -999999 ≤ -1 ≤ 9999999) by lia.
  pose proof (out_of_range_display (cfg_one_display false) (spawn_ok 5) (-1) 0
                (boot_world 1) Hout) as (_ & Hrel & Hw & _).
  exact (conj Hout (conj (Hrel eq_refl Hfits) Hw)).
Defined.

(** Display -1 is out of range.  With DEBUGASSERT expanding to nothing and a
    spawn that succeeds, up_fbinitialize returns OK, not -EINVAL; with
    assertions active it stops at the DEBUGASSERT.  up_fbgetvplane looks the
    session up all the same and has no value to return. *)
Lemma out_of_range_display_not_einval :
  ¬ (0 ≤ -1 < RFB_MAX_DISPLAYS (cfg_one_display false)) ∧
  up_fbinitialize (cfg_one_display false) (spawn_ok 5) (-1) (boot_world 1)
    = (Returned OK, boot_world 1) ∧
  OK ≠ - EINVAL ∧
  up_fbinitialize (cfg_one_display true) (spawn_ok 5) (-1) (boot_world 1)
    = (AssertFailed, boot_world 1) ∧
  up_fbgetvplane (cfg_one_display false) (-1) 0 (boot_world 1)
    = (NullDeref, boot_world 1).
Proof. simpl. split; [lia |]. repeat split. discriminate. Qed.

(** ** The unfinished parts of the driver *)

Section Scanning.

Context (cfg : config).


(** up_getplaneinfo on a scanning session that has a frame buffer: the
    length handed out is the stride times the configured screen width, in
    32 bits. *)
Lemma up_getplaneinfo_scanning w p fbinfo s pinfo :
  g_fbinfo w !! p = Some fbinfo →
  vnc_find_session cfg (display fbinfo) w = Some s →
  state s = VNCSERVER_SCANNING →
  fb s ≠ 0 →
  up_getplaneinfo cfg (Some p) 0 (Some pinfo) w
  = (Returned (OK, Some {| fbmem := ADDR_OF_SESSION_FB (display fbinfo);
                           fblen := uint32_t (uint32_t (stride s) *
                                      CONFIG_VNCSERVER_SCREENWIDTH cfg);
                           pi_stride := fb_coord_t (stride s);
                           pi_bpp := bpp s |}), w).
Proof.
  intros Hp Hs Hst Hfb. apply Z.eqb_neq in Hfb. unfold_driver. simpl.
  by rewrite !andb_false_r, Hp, Hs, Hst, Hfb, andb_false_r.
Qed.

(** up_getcmap hands the structure of the caller back as it came, whatever
    it returns. *)
Lemma up_getcmap_copies_nothing vt cmap w rc out w' :
  up_getcmap cfg vt cmap w = (Returned (rc, out), w') → out = cmap ∧ w' = w.
Proof. run_driver. Qed.

(** up_putcmap on a scanning session answers OK and stores nothing. *)
Lemma up_putcmap_scanning w p fbinfo s cmap :
  g_fbinfo w !! p = Some fbinfo →
  vnc_find_session cfg (display fbinfo) w = Some s →
  state s = VNCSERVER_SCANNING →
  up_putcmap cfg (Some p) (Some cmap) w = (Returned OK, w).
Proof.
  intros Hp Hs Hst. unfold_driver. simpl.
  by rewrite andb_false_r, Hp, Hs, Hst.
Qed.

End Scanning.

(** On the session of 320x240 pixels the geometry is reported as negotiated. *)
Example up_getvideoinfo_320x240 :
  up_getvideoinfo (cfg_one_display false) (Some 0%nat) (Some vinfo_blank)
    (world_bound0 VNCSERVER_SCANNING)
  = (Returned (OK, Some (VideoInfo FB_FMT_RGB16_565 320 240 1)),
     world_bound0 VNCSERVER_SCANNING).
Proof. reflexivity. Qed.

(** C1, the code at the scenario of the claim.  The session is scanning,
    320x240 pixels of 16 bits with a stride of 640, and the screen width is
    configured as 320.  up_getplaneinfo answers stride 640 and length
    640 * 320 = 204800; stride times height is 640 * 240 = 153600. *)
Theorem up_getplaneinfo_fblen_320x240 :
  let cfg := cfg_one_display false in
  let w := world_bound0 VNCSERVER_SCANNING in
  let s := session_320x240 VNCSERVER_SCANNING in
  vnc_find_session cfg 0 w = Some s ∧
  up_getplaneinfo cfg (Some 0%nat) 0 (Some pinfo_blank) w
    = (Returned (OK, Some (PlaneInfo (ADDR_OF_SESSION_FB 0) 204800 640 16)), w) ∧
  stride s * screen_h s = 153600 ∧
  204800 ≠ stride s * screen_h s.
Proof. repeat split. discriminate. Qed.

(** Once the spawn has succeeded up_fbinitialize returns OK, whatever the
    state of the session then. *)
Lemma up_fbinitialize_does_not_wait cfg kernel_thread disp w :
  CONFIG_DEBUG cfg = false →
  -999999 ≤ disp ≤ 9999999 →
  0 ≤ (kernel_thread disp w).1 →
  up_fbinitialize cfg kernel_thread disp w
  = (Returned OK, (kernel_thread disp w).2).
Proof.
  intros Hdbg Hfits Hpid.
  rewrite up_fbinitialize_spawn; [| by rewrite Hdbg | done].
  by rewrite (proj2 (Z.ltb_ge _ _) Hpid).
Qed.

(** With assertions active even display 0, which is in range, stops at the
    DEBUGASSERT of up_fbinitialize: its lower bound is 8. *)
Example up_fbinitialize_display0_asserts :
  up_fbinitialize (cfg_one_display true) (spawn_ok 5) 0 (boot_world 1)
  = (AssertFailed, boot_world 1).
Proof. reflexivity. Qed.

(** C2, the code on display 0.  The spawn succeeds.  up_fbinitialize returns
    OK while display 0 has no session yet, and likewise while its session is
    still negotiating: it does not wait for the scanning state. *)
Theorem up_fbinitialize_ok_before_scanning :
  let cfg := cfg_one_display false in
  (∃ w', up_fbinitialize cfg (spawn_ok 5) 0 (boot_world 1) = (Returned OK, w') ∧
         vnc_find_session cfg 0 w' = None) ∧
  (∃ w', up_fbinitialize cfg (spawn_negotiating 5) 0 (boot_world 1)
           = (Returned OK, w') ∧
         vnc_find_session cfg 0 w'
           = Some (session_320x240 VNCSERVER_NEGOTIATING)).
Proof. split; eexists; split; reflexivity. Qed.

(** C6, the code on a scanning session.  The entry (255, 128, 64) is put at
    index 0 and up_putcmap answers OK; up_getcmap of the same range into a
    structure holding (0, 0, 0) answers OK and hands back (0, 0, 0). *)
Theorem cmap_put_then_get :
  let cfg := cfg_one_display false in
  let w := world_bound0 VNCSERVER_SCANNING in
  let written := Cmap 0 1 [255] [128] [64] in
  ∃ w1 w2 read,
    up_putcmap cfg (Some 0%nat) (Some written) w = (Returned OK, w1) ∧
    up_getcmap cfg (Some 0%nat) (Some cmap_blank) w1
      = (Returned (OK, Some read), w2) ∧
    read = cmap_blank ∧
    cm_red read ≠ cm_red written.
Proof. do 3 eexists. repeat split. discriminate. Qed.

(** ** The adapter table *)

Section AdapterTable.

Context (cfg : config).

(** The four ways up_fbgetvplane can end. *)
Lemma up_fbgetvplane_cases disp vplane w :
  (vnc_find_session cfg disp w = None ∧
   up_fbgetvplane cfg disp vplane w = (NullDeref, w)) ∨
  (∃ s, vnc_find_session cfg disp w = Some s ∧
        (state s ≠ VNCSERVER_SCANNING ∨ vplane ≠ 0) ∧
        up_fbgetvplane cfg disp vplane w = (Returned None, w)) ∨
  (∃ s, vnc_find_session cfg disp w = Some s ∧
        state s = VNCSERVER_SCANNING ∧ vplane = 0 ∧
        g_fbinfo w !! Z.to_nat disp = None ∧
        up_fbgetvplane cfg disp vplane w = (OutOfBounds, w)) ∨
  (∃ s f, vnc_find_session cfg disp w = Some s ∧
          state s = VNCSERVER_SCANNING ∧ vplane = 0 ∧
          g_fbinfo w !! Z.to_nat disp = Some f ∧
          up_fbgetvplane cfg disp vplane w
          = (Returned (Some (Z.to_nat disp)),
             if initialized f then w else bind_adapter cfg disp f w)).
Proof.
  destruct (vnc_find_session cfg disp w) as [s|] eqn:Hs;
    [| left; split; [done |]; unfold_driver; by rewrite Hs].
  right. pose proof (vnc_find_session_in_range _ _ _ _ Hs) as [H0 _].
  destruct (decide (state s = VNCSERVER_SCANNING)) as [Hst | Hst].
  - destruct (decide (vplane = 0)) as [-> | Hv].
    + right. destruct (g_fbinfo w !! Z.to_nat disp) as [f|] eqn:Hf.
      * right. exists s, f. repeat split; try done.
        by apply (up_fbgetvplane_scanning cfg w disp s f).
      * left. exists s. repeat split; try done.
        unfold_driver. rewrite Hs, Hst. simpl.
        by rewrite (bool_decide_eq_true_2 _ H0), Hf.
    + left. exists s. split; [done |]. split; [by right |].
      apply Z.eqb_neq in Hv. unfold_driver. rewrite Hs, Hst, Hv. by simpl.
  - left. exists s. split; [done |]. split; [by left |].
    unfold_driver. rewrite Hs. by rewrite (bool_decide_eq_true_2 _ Hst).
Qed.

(** X1. up_fbgetvplane writes at most the entry of its display in g_fbinfo,
    and that one only while it is not yet initialized: the sessions, the
    cursor data, the size of the array, every other entry and every entry
    already initialized are after the call what they were before. *)
Theorem up_fbgetvplane_frame disp vplane w :
  g_vnc_sessions (up_fbgetvplane cfg disp vplane w).2 = g_vnc_sessions w ∧
  g_cpos (up_fbgetvplane cfg disp vplane w).2 = g_cpos w ∧
  g_csize (up_fbgetvplane cfg disp vplane w).2 = g_csize w ∧
  length (g_fbinfo (up_fbgetvplane cfg disp vplane w).2) = length (g_fbinfo w) ∧
  (∀ j f, g_fbinfo w !! j = Some f →
          j ≠ Z.to_nat disp ∨ initialized f = true →
          g_fbinfo (up_fbgetvplane cfg disp vplane w).2 !! j = Some f).
Proof.
  destruct (up_fbgetvplane_cases disp vplane w)
    as [[_ ->] | [(s & _ & _ & ->) | [(s & _ & _ & _ & _ & ->)
       | (s & f & _ & _ & _ & Hf & ->)]]]; try done.
  simpl. destruct (initialized f) eqn:Hi; [done |]. simpl.
  repeat split; [apply length_insert |].
  intros j f' Hj [Hne | Hinit].
  - by rewrite list_lookup_insert_ne.
  - destruct (decide (j = Z.to_nat disp)) as [-> | Hne];
      [congruence | by rewrite list_lookup_insert_ne].
Qed.

(** X2. The outcome of up_fbgetvplane, with g_fbinfo of its declared size.
    A pointer that is not NULL is the address of the entry of the display,
    which is then initialized, and is handed out only for plane 0 of a
    display in range whose session is scanning.  NULL means that the session
    exists and is not scanning, or that the plane is not 0.  The call faults
    only by reading through the NULL session of a display that has none; it
    never indexes g_fbinfo outside the array. *)
Theorem up_fbgetvplane_outcome disp vplane w :
  length (g_fbinfo w) = Z.to_nat (RFB_MAX_DISPLAYS cfg) →
  match (up_fbgetvplane cfg disp vplane w).1 with
  | Returned (Some p) =>
      p = Z.to_nat disp ∧ 0 ≤ disp < RFB_MAX_DISPLAYS cfg ∧ vplane = 0 ∧
      (∃ s, vnc_find_session cfg disp w = Some s ∧
            state s = VNCSERVER_SCANNING) ∧
      (∃ f, g_fbinfo (up_fbgetvplane cfg disp vplane w).2 !! p = Some f ∧
            initialized f = true)
  | Returned None =>
      ∃ s, vnc_find_session cfg disp w = Some s ∧
           (state s ≠ VNCSERVER_SCANNING ∨ vplane ≠ 0)
  | NullDeref => vnc_find_session cfg disp w = None
  | AssertFailed | OutOfBounds => False
  end.
Proof.
  intros Hlen.
  destruct (up_fbgetvplane_cases disp vplane w)
    as [[Hs ->] | [(s & Hs & Hwhy & ->) | [(s & Hs & _ & _ & Hf & ->)
       | (s & f & Hs & Hst & Hv & Hf & ->)]]]; simpl.
  - done.
  - by exists s.
  - pose proof (vnc_find_session_in_range _ _ _ _ Hs).
    apply lookup_ge_None in Hf. lia.
  - pose proof (vnc_find_session_in_range _ _ _ _ Hs) as Hr.
    split; [done |]. split; [done |]. split; [done |].
    split; [by exists s |].
    destruct (initialized f) eqn:Hi; [by exists f |].
    exists (fbinfo_bound cfg disp f). split; [| done].
    simpl. apply list_lookup_insert_eq. by apply lookup_lt_Some in Hf.
Qed.

End AdapterTable.

Lemma up_fbgetvplane_outcome_witness :
  let cfg := cfg_one_display false in
  let w := world_with {[ 0 := session_320x240 VNCSERVER_SCANNING ]} 1 in
  length (g_fbinfo w) = Z.to_nat (RFB_MAX_DISPLAYS cfg) ∧
  ∃ f, g_fbinfo (up_fbgetvplane cfg 0 0 w).2 !! 0%nat = Some f ∧
       initialized f = true.
Proof.
  assert (Hlen : length (g_fbinfo
                   (world_with {[ 0 := session_320x240 VNCSERVER_SCANNING ]} 1))
                 = Z.to_nat (RFB_MAX_DISPLAYS (cfg_one_display false)))
    by reflexivity.
  pose proof (up_fbgetvplane_outcome (cfg_one_display false) 0 0 _ Hlen) as H.
  simpl. split; [exact Hlen |]. exact (proj2 (proj2 (proj2 (proj2 H)))).
Defined.

Section Invariant.

Context (cfg : config) (kernel_thread : Z → world → Z * world).

Lemma up_fbuninitialize_world disp w : (up_fbuninitialize cfg disp w).2 = w.
Proof. run_driver. Qed.

(** up_fbinitialize leaves the world as it found it or as the spawn left it. *)
Lemma up_fbinitialize_world disp w :
  (up_fbinitialize cfg kernel_thread disp w).2 = w ∨
  (up_fbinitialize cfg kernel_thread disp w).2 = (kernel_thread disp w).2.
Proof.
  unfold_driver.
  destruct (CONFIG_DEBUG cfg &&
            negb ((8 <=? disp) && (disp <? RFB_MAX_DISPLAYS cfg))); simpl;
    [by left |].
  case_bool_decide; simpl; [| by left].
  destruct (kernel_thread disp w) as [pid w']. simpl.
  right. by destruct (pid <? 0).
Qed.

Lemma fbinfo_inv_boot ss :
  0 ≤ RFB_MAX_DISPLAYS cfg →
  fbinfo_inv cfg (world_with ss (Z.to_nat (RFB_MAX_DISPLAYS cfg))).
Proof.
  intros _. split; simpl; [apply length_replicate |].
  intros i f [-> _]%lookup_replicate. by left.
Qed.

Lemma fbinfo_inv_up_fbgetvplane disp vplane w :
  fbinfo_inv cfg w → fbinfo_inv cfg (up_fbgetvplane cfg disp vplane w).2.
Proof.
  intros [Hlen Hent].
  destruct (up_fbgetvplane_cases cfg disp vplane w)
    as [[_ ->] | [(s & _ & _ & ->) | [(s & _ & _ & _ & _ & ->)
       | (s & f & Hs & _ & _ & Hf & ->)]]]; try done.
  simpl. destruct (initialized f) eqn:Hi; [done |].
  pose proof (vnc_find_session_in_range _ _ _ _ Hs) as [H0 _].
  split; simpl; [by rewrite length_insert |].
  intros i f'. destruct (decide (i = Z.to_nat disp)) as [-> | Hne].
  - rewrite list_lookup_insert_eq by (by apply lookup_lt_Some in Hf).
    intros [= <-]. right. rewrite Z2Nat.id by done.
    destruct (Hent _ _ Hf) as [-> | ->]; [done | by simpl in Hi].
  - rewrite list_lookup_insert_ne by done. apply Hent.
Qed.

(** X3. The invariant of the adapter table.  Provided the spawned task does
    not write g_fbinfo (the array is private to the driver), every sequence of
    calls of the nine functions, with whatever arguments, keeps g_fbinfo at
    its declared size with every entry either untouched or holding, for the
    display of its own index, the vtable of this driver. *)
Theorem fbinfo_inv_calls cs w :
  (∀ d w0, g_fbinfo (kernel_thread d w0).2 = g_fbinfo w0) →
  fbinfo_inv cfg w →
  fbinfo_inv cfg (world_after_calls cfg kernel_thread cs w).
Proof.
  intros Hkt. revert w. induction cs as [| c cs IH]; intros w Hinv; [done |].
  simpl. apply IH. destruct c; simpl.
  - destruct (up_fbinitialize_world disp w) as [-> | ->]; [done |].
    unfold fbinfo_inv in *. by rewrite Hkt.
  - by apply fbinfo_inv_up_fbgetvplane.
  - by rewrite up_fbuninitialize_world.
  - by rewrite (proj1 (up_getvideoinfo_all_or_nothing cfg vt vinfo w)).
  - by rewrite (proj1 (up_getplaneinfo_all_or_nothing cfg vt planeno pinfo w)).
  - by rewrite (proj1 (up_getcmap_all_or_nothing cfg vt cmap w)).
  - by rewrite up_putcmap_world.
  - by rewrite (proj1 (up_getcursor_all_or_nothing cfg vt attrib w)).
  - by rewrite (proj1 (up_setcursor_all_or_nothing cfg vt settings w)).
Qed.

End Invariant.

Lemma fbinfo_inv_calls_witness :
  let cfg := cfg_one_display false in
  let cs := [CALL_up_fbinitialize 0; CALL_up_fbgetvplane 0 0;
             CALL_up_getvideoinfo (Some 0%nat) (Some vinfo_blank);
             CALL_up_fbuninitialize 0; CALL_up_fbgetvplane 0 0] in
  (∀ d w0, g_fbinfo (spawn_scanning 5 d w0).2 = g_fbinfo w0) ∧
  fbinfo_inv cfg (boot_world 1) ∧
  fbinfo_inv cfg (world_after_calls cfg (spawn_scanning 5) cs (boot_world 1)).
Proof.
  assert (Hkt : ∀ d w0, g_fbinfo (spawn_scanning 5 d w0).2 = g_fbinfo w0)
    by reflexivity.
  assert (Hboot : fbinfo_inv (cfg_one_display false) (boot_world 1))
    by (apply (fbinfo_inv_boot (cfg_one_display false) ∅); simpl; lia).
  exact (conj Hkt (conj Hboot
    (fbinfo_inv_calls (cfg_one_display false) (spawn_scanning 5) _ _ Hkt Hboot))).
Defined.

(** After the calls of the witness above the entry of display 0 is bound. *)
Example world_after_calls_binds :
  g_fbinfo (world_after_calls (cfg_one_display false) (spawn_scanning 5)
              [CALL_up_fbinitialize 0; CALL_up_fbgetvplane 0 0;
               CALL_up_fbuninitialize 0] (boot_world 1))
  = [fbinfo_bound0].
Proof. reflexivity. Qed.

(** ** From the start of a display to its geometry *)

Section Pipeline.

Context (cfg : config).






End Pipeline.



(** ** What the capability operations return *)

Section ReturnValues.

Context (cfg : config).

Ltac codes := unfold returns_one_of; run_driver; rewrite !elem_of_cons; auto.

(** X6. A capability operation that returns, returns OK, -EINVAL or
    -ENOTCONN and nothing else. *)
Theorem capability_return_codes vt planeno vinfo pinfo cmap attrib settings w :
  returns_one_of [OK; - EINVAL; - ENOTCONN] fst
    (up_getvideoinfo cfg vt vinfo w).1 ∧
  returns_one_of [OK; - EINVAL; - ENOTCONN] fst
    (up_getplaneinfo cfg vt planeno pinfo w).1 ∧
  returns_one_of [OK; - EINVAL; - ENOTCONN] fst (up_getcmap cfg vt cmap w).1 ∧
  returns_one_of [OK; - EINVAL; - ENOTCONN] id (up_putcmap cfg vt cmap w).1 ∧
  returns_one_of [OK; - EINVAL; - ENOTCONN] fst
    (up_getcursor cfg vt attrib w).1 ∧
  returns_one_of [OK; - EINVAL; - ENOTCONN] fst
    (up_setcursor cfg vt settings w).1.
Proof. repeat split; codes. Qed.

Lemma not_scanning_false s :
  bool_decide (state s ≠ VNCSERVER_SCANNING) = false →
  state s = VNCSERVER_SCANNING.
Proof. intros H%bool_decide_eq_false. by apply dec_stable. Qed.

Ltac ok_only_if :=
  unfold_driver; unfold OK, EINVAL, ENOTCONN in *;
  repeat (case_match; simplify_eq/=); intros; simplify_eq/=;
  match goal with
  | Hf : g_fbinfo _ !! ?p = Some ?f,
    Hs : vnc_find_session _ _ _ = Some ?s,
    Hb : bool_decide _ = false |- _ =>
      split; [exists p, f, s; repeat split; try done;
              by apply not_scanning_false | done]
  end.

Ltac ok_if :=
  intros [(p & f & s & -> & Hf & Hs & Hst) Harg];
  match goal with
  | |- context [up_putcmap _ _ ?a _] => destruct a; [| done]
  | |- ∃ _, (_ _ _ ?a _).1 = _ => destruct a; [| done]
  end;
  unfold_driver; simpl; rewrite andb_false_r, Hf, Hs, Hst; simpl;
  repeat (case_match; simplify_eq/=); first [reflexivity | eexists; reflexivity].

(** X7. When a capability operation answers OK.  up_getvideoinfo, up_getcmap,
    up_putcmap, up_getcursor and up_setcursor return OK exactly when the
    argument structure is not NULL and the vtable pointer is the address of
    an entry of g_fbinfo whose display has a session in the scanning state. *)
Theorem capability_ok_iff_connected vt vinfo cmap attrib settings w :
  ((∃ out, (up_getvideoinfo cfg vt vinfo w).1 = Returned (OK, out))
     ↔ connected_through cfg vt w ∧ vinfo ≠ None) ∧
  ((∃ out, (up_getcmap cfg vt cmap w).1 = Returned (OK, out))
     ↔ connected_through cfg vt w ∧ cmap ≠ None) ∧
  ((up_putcmap cfg vt cmap w).1 = Returned OK
     ↔ connected_through cfg vt w ∧ cmap ≠ None) ∧
  ((∃ out, (up_getcursor cfg vt attrib w).1 = Returned (OK, out))
     ↔ connected_through cfg vt w ∧ attrib ≠ None) ∧
  ((∃ out, (up_setcursor cfg vt settings w).1 = Returned (OK, out))
     ↔ connected_through cfg vt w ∧ settings ≠ None).
Proof.
  split; [| split; [| split; [| split]]]; (split; [| ok_if]).
  - intros [out Hok]. revert Hok. ok_only_if.
  - intros [out Hok]. revert Hok. ok_only_if.
  - ok_only_if.
  - intros [out Hok]. revert Hok. ok_only_if.
  - intros [out Hok]. revert Hok. ok_only_if.
Qed.

End ReturnValues.

(** ** The plane information *)

Section PlaneInfo.

Context (cfg : config).

(** X8. When up_getplaneinfo answers OK: exactly when the plane is 0, the
    structure is not NULL, the vtable pointer is the address of an entry of
    g_fbinfo whose display has a scanning session, and either that session
    has a frame buffer or DEBUGASSERT expands to nothing.  A session without
    a frame buffer is refused by the assertion only. *)
Theorem up_getplaneinfo_ok_iff vt planeno pinfo w :
  (∃ out, (up_getplaneinfo cfg vt planeno pinfo w).1 = Returned (OK, out))
  ↔ planeno = 0 ∧ pinfo ≠ None ∧
    ∃ p f s, vt = Some p ∧ g_fbinfo w !! p = Some f ∧
             vnc_find_session cfg (display f) w = Some s ∧
             state s = VNCSERVER_SCANNING ∧
             (CONFIG_DEBUG cfg = false ∨ fb s ≠ 0).
Proof.
  split.
  - intros [out Hok]. revert Hok.
    unfold_driver; unfold OK, EINVAL, ENOTCONN in *.
    repeat (case_match; simplify_eq/=); intros; simplify_eq/=.
    all: match goal with
         | Hf : g_fbinfo _ !! ?p = Some ?f,
           Hs : vnc_find_session _ _ _ = Some ?s,
           Hb : bool_decide _ = false,
           Hp : (_ =? 0) = true |- _ =>
             apply Z.eqb_eq in Hp; apply not_scanning_false in Hb;
             split; [done |]; split; [done |]; exists p, f, s;
             repeat split; try done
         end.
    all: match goal with
         | Ha : _ && negb (negb (fb _ =? 0)) = false |- _ =>
             apply andb_false_iff in Ha as [Ha | Ha]; [by left | right];
             rewrite negb_involutive in Ha; by apply Z.eqb_neq
         end.
  - intros (-> & Hpinfo & p & f & s & -> & Hf & Hs & Hst & Hfb).
    destruct pinfo as [pi|]; [| done].
    assert (Hassert : CONFIG_DEBUG cfg && negb (negb (fb s =? 0)) = false).
    { destruct Hfb as [-> | Hfb]; [done |].
      apply Z.eqb_neq in Hfb. rewrite Hfb. apply andb_false_r. }
    unfold_driver. simpl. rewrite !andb_false_r, Hf, Hs, Hst. simpl.
    rewrite Hassert. by eexists.
Qed.


(** X10. The plane information is exact as long as nothing wraps: for a
    scanning session with a frame buffer, a stride that fits 16 bits and a
    product of stride and configured screen width that fits 32 bits,
    up_getplaneinfo reports that stride and that product. *)
Theorem up_getplaneinfo_exact w p f s pinfo :
  g_fbinfo w !! p = Some f →
  vnc_find_session cfg (display f) w = Some s →
  state s = VNCSERVER_SCANNING →
  fb s ≠ 0 →
  0 ≤ stride s < 2 ^ 16 →
  0 ≤ stride s * CONFIG_VNCSERVER_SCREENWIDTH cfg < 2 ^ 32 →
  up_getplaneinfo cfg (Some p) 0 (Some pinfo) w
  = (Returned (OK, Some {| fbmem := ADDR_OF_SESSION_FB (display f);
                           fblen := stride s * CONFIG_VNCSERVER_SCREENWIDTH cfg;
                           pi_stride := stride s;
                           pi_bpp := bpp s |}), w).
Proof.
  intros Hf Hs Hst Hfb Hstride Hlen.
  rewrite (up_getplaneinfo_scanning cfg w p f s pinfo Hf Hs Hst Hfb).
  unfold uint32_t, fb_coord_t.
  rewrite (Z.mod_small (stride s) (2 ^ 32)) by lia.
  by rewrite (Z.mod_small _ (2 ^ 32)), (Z.mod_small _ (2 ^ 16)) by lia.
Qed.

End PlaneInfo.


Lemma up_getplaneinfo_exact_witness :
  let cfg := cfg_one_display false in
  let w := world_bound0 VNCSERVER_SCANNING in
  let s := session_320x240 VNCSERVER_SCANNING in
  0 ≤ stride s < 2 ^ 16 ∧
  0 ≤ stride s * CONFIG_VNCSERVER_SCREENWIDTH cfg < 2 ^ 32 ∧
  up_getplaneinfo cfg (Some 0%nat) 0 (Some pinfo_blank) w
    = (Returned (OK, Some (PlaneInfo (ADDR_OF_SESSION_FB 0) (640 * 320) 640 16)),
       w).
Proof.
  assert (H1 : 0 ≤ stride (session_320x240 VNCSERVER_SCANNING) < 2 ^ 16)
    by (simpl; lia).
  assert (H2 : 0 ≤ stride (session_320x240 VNCSERVER_SCANNING)
                   * CONFIG_VNCSERVER_SCREENWIDTH (cfg_one_display false)
               < 2 ^ 32) by (simpl; lia).
  assert (Hfb : fb (session_320x240 VNCSERVER_SCANNING) ≠ 0) by discriminate.
  exact (conj H1 (conj H2
    (up_getplaneinfo_exact (cfg_one_display false)
       (world_bound0 VNCSERVER_SCANNING) 0%nat fbinfo_bound0
       (session_320x240 VNCSERVER_SCANNING) pinfo_blank
       eq_refl eq_refl eq_refl Hfb H1 H2))).
Defined.

(** ** The start of a display *)

Section Start.

Context (cfg : config) (kernel_thread : Z → world → Z * world).

(** X11. What up_fbinitialize returns.  When the call returns, the world is
    the one the spawn left, the value is never positive, it is OK exactly
    when the spawn answered a task identifier (zero or more), and a negative
    value is the answer of the spawn itself: the identifier of the task is
    not handed to the caller. *)
Theorem up_fbinitialize_result disp w rc w' :
  up_fbinitialize cfg kernel_thread disp w = (Returned rc, w') →
  w' = (kernel_thread disp w).2 ∧
  rc ≤ 0 ∧
  (rc = OK ↔ 0 ≤ (kernel_thread disp w).1) ∧
  (rc < 0 → rc = (kernel_thread disp w).1).
Proof.
  unfold_driver. unfold OK.
  destruct (CONFIG_DEBUG cfg &&
            negb ((8 <=? disp) && (disp <? RFB_MAX_DISPLAYS cfg))); simpl;
    [done |].
  case_bool_decide; simpl; [| done].
  destruct (kernel_thread disp w) as [pid wk]. simpl.
  destruct (Z.ltb_spec pid 0); simpl; intros [= <- <-]; repeat split; lia.
Qed.

(** X12. The assertion of up_fbinitialize.  The call stops at its DEBUGASSERT
    exactly when assertions are active and the display number is below 8 or
    not below RFB_MAX_DISPLAYS; the displays 0 to 7 are among them, whatever
    the number of displays. *)
Theorem up_fbinitialize_asserts_iff disp w :
  (up_fbinitialize cfg kernel_thread disp w).1 = AssertFailed
  ↔ CONFIG_DEBUG cfg = true ∧ (disp < 8 ∨ RFB_MAX_DISPLAYS cfg ≤ disp).
Proof.
  unfold_driver.
  destruct (CONFIG_DEBUG cfg); simpl.
  - destruct (Z.leb_spec 8 disp), (Z.ltb_spec disp (RFB_MAX_DISPLAYS cfg));
      simpl.
    + case_bool_decide; simpl.
      * destruct (kernel_thread disp w) as [pid wk]. simpl.
        destruct (pid <? 0); simpl; split; (done || intros [_ ?]; lia).
      * split; (done || intros [_ ?]; lia).
    + split; [intros _; split; [done | lia] | done].
    + split; [intros _; split; [done | lia] | done].
    + split; [intros _; split; [done | lia] | done].
  - case_bool_decide; simpl.
    + destruct (kernel_thread disp w) as [pid wk]. simpl.
      destruct (pid <? 0); simpl; split; (done || by intros [? _]).
    + split; (done || by intros [? _]).
Qed.

End Start.

Lemma up_fbinitialize_result_witness :
  let cfg := cfg_one_display false in
  up_fbinitialize cfg (spawn_ok 5) 0 (boot_world 1)
    = (Returned OK, boot_world 1) ∧
  OK ≤ 0 ∧
  (OK = OK ↔ 0 ≤ (spawn_ok 5 0 (boot_world 1)).1).
Proof.
  assert (H : up_fbinitialize (cfg_one_display false) (spawn_ok 5) 0
                (boot_world 1) = (Returned OK, boot_world 1)) by reflexivity.
  pose proof (up_fbinitialize_result (cfg_one_display false) (spawn_ok 5) 0
                (boot_world 1) OK (boot_world 1) H) as (_ & Hle & Hiff & _).
  exact (conj H (conj Hle Hiff)).
Defined.

(** ** Independence of the capability operations *)

Section Independence.

Context (cfg : config).

(** X13. A capability operation looks at nothing but the entry of g_fbinfo
    it is given and the session of the display recorded there: in two worlds
    that agree on these two, it ends the same way with the same result,
    whatever the other displays, sessions and entries are. *)
Theorem capability_own_session_only p f w1 w2 planeno vinfo pinfo cmap attrib
    settings :
  g_fbinfo w1 !! p = Some f →
  g_fbinfo w2 !! p = Some f →
  vnc_find_session cfg (display f) w1 = vnc_find_session cfg (display f) w2 →
  (up_getvideoinfo cfg (Some p) vinfo w1).1
    = (up_getvideoinfo cfg (Some p) vinfo w2).1 ∧
  (up_getplaneinfo cfg (Some p) planeno pinfo w1).1
    = (up_getplaneinfo cfg (Some p) planeno pinfo w2).1 ∧
  (up_getcmap cfg (Some p) cmap w1).1 = (up_getcmap cfg (Some p) cmap w2).1 ∧
  (up_putcmap cfg (Some p) cmap w1).1 = (up_putcmap cfg (Some p) cmap w2).1 ∧
  (up_getcursor cfg (Some p) attrib w1).1
    = (up_getcursor cfg (Some p) attrib w2).1 ∧
  (up_setcursor cfg (Some p) settings w1).1
    = (up_setcursor cfg (Some p) settings w2).1.
Proof.
  intros Hf1 Hf2 Hs.
  split; [| split; [| split; [| split; [| split]]]];
    unfold_driver; simpl;
    repeat (case_match; simplify_eq/=); try done; congruence.
Qed.

(** X14. Without assertions no capability operation faults on a vtable
    pointer that is NULL or the address of an entry of g_fbinfo: each of
    them returns, and leaves the world as it was. *)
Theorem capability_returns vt planeno vinfo pinfo cmap attrib settings w :
  CONFIG_DEBUG cfg = false →
  (∀ p, vt = Some p → is_Some (g_fbinfo w !! p)) →
  (∃ r, up_getvideoinfo cfg vt vinfo w = (Returned r, w)) ∧
  (∃ r, up_getplaneinfo cfg vt planeno pinfo w = (Returned r, w)) ∧
  (∃ r, up_getcmap cfg vt cmap w = (Returned r, w)) ∧
  (∃ r, up_putcmap cfg vt cmap w = (Returned r, w)) ∧
  (∃ r, up_getcursor cfg vt attrib w = (Returned r, w)) ∧
  (∃ r, up_setcursor cfg vt settings w = (Returned r, w)).
Proof.
  intros Hdbg Hvt.
  assert (Hp : ∀ p, vt = Some p → g_fbinfo w !! p = None → False).
  { intros p Hp Hnone. destruct (Hvt p Hp) as [f Hf]. congruence. }
  split; [| split; [| split; [| split; [| split]]]];
    unfold_driver; rewrite Hdbg; simpl;
    repeat (case_match; simplify_eq/=); try by eexists.
  all: exfalso; eauto.
Qed.

End Independence.

Lemma capability_own_session_only_witness :
  let cfg := cfg_displays 2 false in
  let w1 := World {[ 0 := session_320x240 VNCSERVER_SCANNING ]}
              [fbinfo_bound0; fbinfo_zero] (CursorPos 0 0) (CursorSize 0 0) in
  let w2 := World {[ 0 := session_320x240 VNCSERVER_SCANNING;
                     1 := session_320x240 VNCSERVER_NEGOTIATING ]}
              [fbinfo_bound0; fbinfo_bound cfg 1 fbinfo_zero]
              (CursorPos 7 7) (CursorSize 0 0) in
  vnc_find_session cfg (display fbinfo_bound0) w1
    = vnc_find_session cfg (display fbinfo_bound0) w2 ∧
  (up_getvideoinfo cfg (Some 0%nat) (Some vinfo_blank) w1).1
    = (up_getvideoinfo cfg (Some 0%nat) (Some vinfo_blank) w2).1.
Proof.
  pose (cfg := cfg_displays 2 false).
  pose (w1 := World {[ 0 := session_320x240 VNCSERVER_SCANNING ]}
                [fbinfo_bound0; fbinfo_zero] (CursorPos 0 0) (CursorSize 0 0)).
  pose (w2 := World {[ 0 := session_320x240 VNCSERVER_SCANNING;
                       1 := session_320x240 VNCSERVER_NEGOTIATING ]}
                [fbinfo_bound0; fbinfo_bound cfg 1 fbinfo_zero]
                (CursorPos 7 7) (CursorSize 0 0)).
  assert (Hs : vnc_find_session cfg (display fbinfo_bound0) w1
               = vnc_find_session cfg (display fbinfo_bound0) w2)
    by reflexivity.
  exact (conj Hs
    (proj1 (capability_own_session_only cfg 0%nat fbinfo_bound0 w1 w2 0
              (Some vinfo_blank) (Some pinfo_blank) (Some cmap_blank)
              (Some attrib_blank) (Some settings_move) eq_refl eq_refl Hs))).
Defined.

Lemma capability_returns_witness :
  let cfg := cfg_one_display false in
  let w := world_bound0 VNCSERVER_STOPPED in
  CONFIG_DEBUG cfg = false ∧
  (∀ p, Some 0%nat = Some p → is_Some (g_fbinfo w !! p)) ∧
  ∃ r, up_setcursor cfg (Some 0%nat) (Some settings_move) w = (Returned r, w).
Proof.
  assert (Hvt : ∀ p, Some 0%nat = Some p →
                     is_Some (g_fbinfo (world_bound0 VNCSERVER_STOPPED) !! p))
    by (intros p [= <-]; by eexists).
  pose proof (capability_returns (cfg_one_display false) (Some 0%nat) 0
                (Some vinfo_blank) (Some pinfo_blank) (Some cmap_blank)
                (Some attrib_blank) (Some settings_move)
                (world_bound0 VNCSERVER_STOPPED) eq_refl Hvt)
    as (_ & _ & _ & _ & _ & Hset).
  exact (conj eq_refl (conj Hvt Hset)).
Defined.
